(** * The AI Mob Creator front end: the [App] component's workflow controller

    A shallow embedding of [App.tsx]: the five [useState] cells, the three
    handlers [handleGenerate], [handleDownload] and [handleStartOver], and the
    conditions under which the JSX binds them to a rendered control; with
    it, the proxy table of [vite.config.ts].

    Conventions of the embedding.
    - A JavaScript string is a [string]; its characters are read as the code
      units U+0000..U+00FF, on which [toLowerCase], [trim] and the class [\s]
      act character by character.
    - A value produced by [res.json()] is a [json]; [JNull] is JavaScript's
      [null].  Numbers are integers: no control flow of the component looks
      at a fractional part.
    - An [async] handler is cut at its first [await] into a synchronous
      [_begin] part and a [_resume] continuation, which runs against the
      store as it is when the response arrives. *)

From Stdlib Require Import Strings.String Strings.Ascii Strings.Byte.
From Stdlib Require Import Lists.List Bool.Bool.
From Stdlib Require Import ZArith.ZArith NArith.NArith micromega.Lia.
From Stdlib Require Import Numbers.DecimalString.
From Stdlib Require Numbers.DecimalN Numbers.DecimalPos.
Import ListNotations.

Local Open Scope string_scope.
#[local] Set Warnings "-register-all".

(** ** JavaScript strings *)

Module JsString.

(** The class [\s] of a regular expression, which is also what [trim]
    strips: TAB, LF, VT, FF, CR, SPACE and NO-BREAK SPACE. *)
Definition is_space (c : ascii) : bool :=
  match N_of_ascii c with
  | 9 | 10 | 11 | 12 | 13 | 32 | 160 => true
  | _ => false
  end%N.

(** [toLowerCase] on one code unit: A-Z, and the capitals U+00C0..U+00DE
    without the multiplication sign U+00D7. *)
Definition lower_char (c : ascii) : ascii :=
  let n := N_of_ascii c in
  if ((65 <=? n) && (n <=? 90)
      || (192 <=? n) && (n <=? 222) && negb (n =? 215))%N
  then ascii_of_N (n + 32)
  else c.

Fixpoint toLowerCase (s : string) : string :=
  match s with
  | EmptyString => EmptyString
  | String c s' => String (lower_char c) (toLowerCase s')
  end.

Fixpoint trimStart (s : string) : string :=
  match s with
  | EmptyString => EmptyString
  | String c s' => if is_space c then trimStart s' else s
  end.

Definition is_empty (s : string) : bool :=
  match s with
  | EmptyString => true
  | String _ _ => false
  end.

Fixpoint trimEnd (s : string) : string :=
  match s with
  | EmptyString => EmptyString
  | String c s' =>
      let t := trimEnd s' in
      if is_space c && is_empty t then EmptyString else String c t
  end.

Definition trim (s : string) : string := trimEnd (trimStart s).

(** [s.replace(/\s+/g, "_")].  The scan goes left to right; a match opens at
    a white-space character and greedily takes the whole run.  [in_run] says
    that the current character continues a match already replaced. *)
Fixpoint replace_runs (in_run : bool) (s : string) : string :=
  match s with
  | EmptyString => EmptyString
  | String c s' =>
      if is_space c
      then if in_run
           then replace_runs true s'
           else String "_" (replace_runs true s')
      else String c (replace_runs false s')
  end.

Definition replace_space_runs (s : string) : string := replace_runs false s.

(** Every character of [s] is white space. *)
Fixpoint all_space (s : string) : bool :=
  match s with
  | EmptyString => true
  | String c s' => is_space c && all_space s'
  end.

(** Template-literal rendering of a non-negative integer such as
    [res.status]. *)
Definition of_N (n : N) : string := NilZero.string_of_uint (N.to_uint n).

(** [String(n)] for an integer. *)
Definition of_Z (n : Z) : string := NilZero.string_of_int (Z.to_int n).

End JsString.

(** ** Parsed JSON *)

Inductive json : Type :=
| JNull
| JBool (b : bool)
| JNum (n : Z)
| JStr (s : string)
| JArr (items : list json)
| JObj (members : list (string * json)).

Module Json.

(** JavaScript truthiness, as tested by [!mob] and [mob && ...]. *)
Definition truthy (v : json) : bool :=
  match v with
  | JNull => false
  | JBool b => b
  | JNum n => negb (n =? 0)%Z
  | JStr s => negb (JsString.is_empty s)
  | JArr _ | JObj _ => true
  end.

(** Members are kept in source order; [JSON.parse] lets a later duplicate
    key win. *)
Fixpoint lookup (k : string) (ms : list (string * json)) : option json :=
  match ms with
  | [] => None
  | (k', v) :: ms' =>
      match lookup k ms' with
      | Some w => Some w
      | None => if String.eqb k k' then Some v else None
      end
  end.

(** [v.k] (or [v?.k]) for the two keys the component reads, [detail] and
    [name]: [None] is [undefined].  Neither key is a property of an array,
    a string, a number or a boolean, and [?.] on [null] gives [undefined]. *)
Definition get (k : string) (v : json) : option json :=
  match v with
  | JObj ms => lookup k ms
  | _ => None
  end.

(** [ToString], as applied by [new Error(message)] to its argument, for the
    values on which it is a plain function of the JSON: integers that a
    double holds exactly and prints in full, and objects without a member
    [toString] of their own. *)
Fixpoint ToString (v : json) : string :=
  match v with
  | JNull => "null"
  | JBool true => "true"
  | JBool false => "false"
  | JNum n => JsString.of_Z n
  | JStr s => s
  | JArr items =>
      (fix join (l : list json) : string :=
         match l with
         | [] => ""
         | x :: tl =>
             let e := match x with JNull => "" | _ => ToString x end in
             match tl with
             | [] => e
             | _ :: _ => e ++ "," ++ join tl
             end
         end) items
  | JObj _ => "[object Object]"
  end.




End Json.

(** ** Promises, thrown values and responses *)

(** What a [catch] clause can receive: an [Error] instance, of which only
    the [message] is read, or any other value. *)
Inductive thrown : Type :=
| ErrorObject (message : string)
| NotAnError.

(** [err instanceof Error ? err.message : fallback] *)
Definition message_or (fallback : string) (err : thrown) : string :=
  match err with
  | ErrorObject m => m
  | NotAnError => fallback
  end.

(** The outcome of an awaited promise. *)
Inductive settled (A : Type) : Type :=
| Fulfilled (a : A)
| Rejected (err : thrown).
Arguments Fulfilled {A} a.
Arguments Rejected {A} err.

(** A [Response] with the outcome of reading its body ([res.json()] or
    [res.blob()]). *)
Record Response (B : Type) : Type := mkResponse {
  status : N;
  body : settled B
}.
Arguments mkResponse {B} status body.
Arguments status {B} r.
Arguments body {B} r.

(** [res.ok]: the status is in 200..299. *)
Definition ok {B : Type} (res : Response B) : bool :=
  ((200 <=? status res) && (status res <=? 299))%N.

Definition blob : Type := list byte.

(** What the handlers do to the outside world. *)
Inductive effect : Type :=
| PreventDefault
| Fetch (url : string) (payload : json)
| SaveAs (filename : string) (content : blob).

Definition is_fetch (e : effect) : bool :=
  match e with
  | Fetch _ _ => true
  | _ => false
  end.

(** ** The component's state *)

Inductive AppState : Type := Idle | Loading | Result | Error.

Record Store : Type := mkStore {
  prompt : string;
  state : AppState;
  mob : json;
  error : string;
  downloading : bool
}.

(** The initial values given to [useState]. *)
Definition initial : Store := mkStore "" Idle JNull "" false.

Definition setPrompt (v : string) (st : Store) : Store :=
  mkStore v (state st) (mob st) (error st) (downloading st).
Definition setState (v : AppState) (st : Store) : Store :=
  mkStore (prompt st) v (mob st) (error st) (downloading st).
Definition setMob (v : json) (st : Store) : Store :=
  mkStore (prompt st) (state st) v (error st) (downloading st).
Definition setError (v : string) (st : Store) : Store :=
  mkStore (prompt st) (state st) (mob st) v (downloading st).
Definition setDownloading (v : bool) (st : Store) : Store :=
  mkStore (prompt st) (state st) (mob st) (error st) v.

(** An operation suspended at its [await].  A download keeps the [mob] of
    the render that started it in its closure. *)
Inductive pending : Type :=
| AwaitGenerate
| AwaitDownload (captured : json).

(** The synchronous part of a handler: the store it leaves, what it did, and
    the operation it left suspended, if any. *)
Record started : Type := mkStarted {
  after : Store;
  effects : list effect;
  awaiting : option pending
}.

(** ** [handleGenerate] *)

Definition handleGenerate_begin (st : Store) : started :=
  if JsString.is_empty (JsString.trim (prompt st))
  then mkStarted st [PreventDefault] None
  else mkStarted
         (setMob JNull (setError "" (setState Loading st)))
         [PreventDefault;
          Fetch "/generate-json"
                (JObj [("prompt", JStr (JsString.trim (prompt st)))])]
         (Some AwaitGenerate).

(** [`Server error (${res.status})`] *)
Definition server_error (code : N) : string :=
  "Server error (" ++ JsString.of_N code ++ ")".

(** [body?.detail ?? `Server error (${res.status})`], then [new Error(...)]'s
    conversion of its argument to a string. *)
Definition failure_message (code : N) (body : json) : string :=
  match Json.get "detail" body with
  | None | Some JNull => server_error code
  | Some d => Json.ToString d
  end.

(** The [try] block after the fetch: the parsed data, or what is thrown. *)
Definition generate_try (o : settled (Response json)) : json + thrown :=
  match o with
  | Rejected err => inr err
  | Fulfilled res =>
      if ok res
      then match body res with
           | Fulfilled data => inl data
           | Rejected err => inr err
           end
      else
        let parsed := match body res with
                      | Fulfilled v => v
                      | Rejected _ => JNull
                      end in
        inr (ErrorObject (failure_message (status res) parsed))
  end.

Definition handleGenerate_resume (o : settled (Response json)) (st : Store)
  : Store :=
  match generate_try o with
  | inl data => setState Result (setMob data st)
  | inr err =>
      setState Error (setError (message_or "Something went wrong" err) st)
  end.

(** [handleGenerate] run to completion, nothing happening in between. *)
Definition handleGenerate (o : settled (Response json)) (st : Store) : Store :=
  let s := handleGenerate_begin st in
  match awaiting s with
  | Some _ => handleGenerate_resume o (after s)
  | None => after s
  end.

(** ** [handleStartOver] *)

Definition handleStartOver (st : Store) : Store :=
  setState Idle (setError "" (setMob JNull (setPrompt "" st))).

(** ** [handleDownload] *)

(** [`${name.toLowerCase().replace(/\s+/g, "_")}.mcaddon`] *)
Definition download_name (name : string) : string :=
  JsString.replace_space_runs (JsString.toLowerCase name) ++ ".mcaddon".

Definition handleDownload_begin (st : Store) : started :=
  if negb (Json.truthy (mob st))
  then mkStarted st [] None
  else mkStarted (setDownloading true st)
                 [Fetch "/build-addon" (mob st)]
                 (Some (AwaitDownload (mob st))).

(** [`Download failed (${res.status})`] *)
Definition download_error (code : N) : string :=
  "Download failed (" ++ JsString.of_N code ++ ")".

Section Engine.

(** Calling [toLowerCase] on a [mob.name] that is not a string raises a
    [TypeError]; the wording of its message belongs to the JavaScript engine
    and is a function of the value found ([None] for [undefined]). *)
Variable type_error_message : option json -> string.

(** The file name computed from the captured creature, or what
    [mob.name.toLowerCase()] throws. *)
Definition filename_of (captured : json) : string + thrown :=
  match Json.get "name" captured with
  | Some (JStr name) => inl (download_name name)
  | other => inr (ErrorObject (type_error_message other))
  end.

(** The [try] block after the fetch: the effects of a completed save (object
    URL, anchor, click, clean-up: one [SaveAs]), or what is thrown. *)
Definition download_try (captured : json) (o : settled (Response blob))
  : list effect + thrown :=
  match o with
  | Rejected err => inr err
  | Fulfilled res =>
      if ok res
      then match body res with
           | Rejected err => inr err
           | Fulfilled content =>
               match filename_of captured with
               | inl filename => inl [SaveAs filename content]
               | inr err => inr err
               end
           end
      else inr (ErrorObject (download_error (status res)))
  end.

(** The continuation with its [catch] and [finally] clauses. *)
Definition handleDownload_resume (captured : json)
    (o : settled (Response blob)) (st : Store) : Store * list effect :=
  match download_try captured o with
  | inl done => (setDownloading false st, done)
  | inr err =>
      (setDownloading false (setError (message_or "Download failed" err) st),
       [])
  end.

(** [handleDownload] run to completion, nothing happening in between. *)
Definition handleDownload (o : settled (Response blob)) (st : Store) : Store :=
  let s := handleDownload_begin st in
  match awaiting s with
  | Some (AwaitDownload captured) =>
      fst (handleDownload_resume captured o (after s))
  | _ => after s
  end.

(** ** The view: which control is rendered and usable in which state *)

(** [state === "idle" || state === "error"]: the prompt form. *)
Definition form_shown (st : Store) : bool :=
  match state st with
  | Idle | Error => true
  | Loading | Result => false
  end.

(** [state === "result" && mob]: the creature card and its two buttons.
    (Rendering the card of a creature without [abilities] or [loot] throws;
    then no control is left at all, which none of the results below rely
    on.) *)
Definition result_shown (st : Store) : bool :=
  match state st with
  | Result => Json.truthy (mob st)
  | Idle | Loading | Error => false
  end.

Inductive control : Type :=
| PromptInput
| SubmitButton
| DownloadButton
| StartOverButton.

Definition usable (c : control) (st : Store) : bool :=
  match c with
  | PromptInput => form_shown st
  | SubmitButton =>
      form_shown st && negb (JsString.is_empty (JsString.trim (prompt st)))
  | DownloadButton => result_shown st && negb (downloading st)
  | StartOverButton => result_shown st
  end.

(** ** The running application *)

Record Config : Type := mkConfig {
  store : Store;
  inflight : list pending;
  log : list effect
}.

Definition init : Config := mkConfig initial [] [].

Inductive outcome : Type :=
| GenerateSettles (o : settled (Response json))
| DownloadSettles (o : settled (Response blob)).

Inductive event : Type :=
| Change (value : string)
| Submit
| ClickDownload
| ClickStartOver
| Settle (i : nat) (o : outcome).

Fixpoint remove_nth {A : Type} (i : nat) (l : list A) : list A :=
  match l, i with
  | [], _ => []
  | _ :: tl, O => tl
  | x :: tl, S j => x :: remove_nth j tl
  end.

Definition launch (c : Config) (s : started) : Config :=
  mkConfig (after s)
           (inflight c ++ match awaiting s with Some p => [p] | None => [] end)
           (log c ++ effects s).

(** One event.  A user event happens only on a usable control; [Settle i]
    delivers an outcome to the [i]-th suspended operation.  [None]: the event
    cannot happen in [c]. *)
Definition step (c : Config) (e : event) : option Config :=
  match e with
  | Change v =>
      if usable PromptInput (store c)
      then Some (mkConfig (setPrompt v (store c)) (inflight c) (log c))
      else None
  | Submit =>
      if usable SubmitButton (store c)
      then Some (launch c (handleGenerate_begin (store c)))
      else None
  | ClickDownload =>
      if usable DownloadButton (store c)
      then Some (launch c (handleDownload_begin (store c)))
      else None
  | ClickStartOver =>
      if usable StartOverButton (store c)
      then Some (mkConfig (handleStartOver (store c)) (inflight c) (log c))
      else None
  | Settle i o =>
      match nth_error (inflight c) i, o with
      | Some AwaitGenerate, GenerateSettles g =>
          Some (mkConfig (handleGenerate_resume g (store c))
                         (remove_nth i (inflight c)) (log c))
      | Some (AwaitDownload captured), DownloadSettles d =>
          let (st, done) := handleDownload_resume captured d (store c) in
          Some (mkConfig st (remove_nth i (inflight c)) (log c ++ done))
      | _, _ => None
      end
  end.

Fixpoint run (c : Config) (es : list event) : option Config :=
  match es with
  | [] => Some c
  | e :: es' =>
      match step c e with
      | Some c' => run c' es'
      | None => None
      end
  end.

Definition is_generate (p : pending) : bool :=
  match p with
  | AwaitGenerate => true
  | AwaitDownload _ => false
  end.

Definition generating (c : Config) : nat :=
  length (filter is_generate (inflight c)).

Definition fetching_addon (c : Config) : nat :=
  length (filter (fun p => negb (is_generate p)) (inflight c)).

End Engine.

(** ** File names, as the specification words them *)

Module FilenameSpec.

(** The maximal runs of a string: consecutive characters of one class, white
    space ([true]) or not ([false]), in order. *)
Fixpoint runs (s : string) : list (bool * string) :=
  match s with
  | EmptyString => []
  | String c s' =>
      match runs s' with
      | (cls, r) :: rest =>
          if Bool.eqb cls (JsString.is_space c)
          then (cls, String c r) :: rest
          else (JsString.is_space c, String c EmptyString) :: (cls, r) :: rest
      | [] => [(JsString.is_space c, String c EmptyString)]
      end
  end.

(** A run of white space becomes one underscore; any other run is kept. *)
Definition collapse (run : bool * string) : string :=
  if fst run then "_" else snd run.

Definition collapse_whitespace (s : string) : string :=
  String.concat "" (map collapse (runs s)).

(** "Lowercase the name, collapse all runs of whitespace to a single
    underscore, append the fixed artifact extension." *)
Definition filename (name : string) : string :=
  collapse_whitespace (JsString.toLowerCase name) ++ ".mcaddon".

End FilenameSpec.

(** ** Sample stores and responses *)

(** The wording V8 uses, to have an engine to run the samples on. *)
Definition v8_type_error (found : option json) : string :=
  match found with
  | None => "Cannot read properties of undefined (reading 'toLowerCase')"
  | Some JNull => "Cannot read properties of null (reading 'toLowerCase')"
  | Some _ => "mob.name.toLowerCase is not a function"
  end.

Definition zed : json :=
  JObj [("name", JStr "Zed Two"); ("health", JNum 20);
        ("attack_damage", JNum 3); ("abilities", JArr [JStr "bite"]);
        ("loot", JArr [])].

Definition typed (text : string) : Store := setPrompt text initial.

Definition showing (creature : json) : Store :=
  mkStore "zed" Result creature "" false.

Definition json_reply (code : N) (v : json) : settled (Response json) :=
  Fulfilled (mkResponse code (Fulfilled v)).

Definition unreadable_reply {B : Type} (code : N) : settled (Response B) :=
  Fulfilled (mkResponse code (Rejected (ErrorObject "Unexpected end of JSON input"))).

(** The prompt typed and submitted, and the configuration that leaves. *)
Definition zed_requested : list event := [Change "zed"; Submit].

Definition zed_loading : Config :=
  mkConfig (mkStore "zed" Loading JNull "" false) [AwaitGenerate]
    [PreventDefault; Fetch "/generate-json" (JObj [("prompt", JStr "zed")])].

(** ** Invariants *)

(** A creature is stored only in [Result]. *)
Definition creature_only_in_result (st : Store) : Prop :=
  mob st <> JNull -> state st = Result.

(** What holds of every configuration the rendered controls can lead to:
    one request of each kind at most, a generation request exactly in
    [Loading], a packaging request exactly while [downloading]. *)
Record coherent (c : Config) : Prop := mkCoherent {
  one_generate : generating c <= 1;
  generate_iff_loading : generating c = 1 <-> state (store c) = Loading;
  one_download : fetching_addon c <= 1;
  download_iff_flag : fetching_addon c = 1 <-> downloading (store c) = true;
  creature_in_result : creature_only_in_result (store c)
}.

(** ** The rest of the view *)

(** [state === "loading"]: the spinner. *)
Definition loading_shown (st : Store) : bool :=
  match state st with
  | Loading => true
  | Idle | Result | Error => false
  end.

(** How many of the three conditional children of [<main>] have their
    condition true.  It bounds what is rendered: the card, whose condition
    is [state === "result" && mob], still throws while rendering a creature
    without [abilities] or [loot]. *)
Definition panels_shown (st : Store) : nat :=
  Nat.b2n (form_shown st) + Nat.b2n (loading_shown st)
  + Nat.b2n (result_shown st).

(** [{downloading ? "Downloading..." : "Download .mcaddon"}] *)
Definition download_label (st : Store) : string :=
  if downloading st then "Downloading..." else "Download .mcaddon".

(** ** Reading strings *)

Definition first_char (s : string) : option ascii :=
  match s with
  | EmptyString => None
  | String c _ => Some c
  end.

Fixpoint last_char (s : string) : option ascii :=
  match s with
  | EmptyString => None
  | String c s' =>
      match last_char s' with
      | Some d => Some d
      | None => Some c
      end
  end.

(** Some character of [s] is white space. *)
Fixpoint has_space (s : string) : bool :=
  match s with
  | EmptyString => false
  | String c s' => JsString.is_space c || has_space s'
  end.

(** ** What a run may leave in the log *)

(** A prompt as [handleGenerate] sends it: not empty, and [trim] has
    nothing to take off it. *)
Definition trimmed_prompt (p : string) : Prop :=
  p <> "" /\ JsString.trim p = p.

(** A file name as [handleDownload] builds it. *)
Definition addon_name (f : string) : Prop :=
  exists stem, f = stem ++ ".mcaddon"
               /\ has_space stem = false
               /\ JsString.toLowerCase stem = stem.

Definition expected (e : effect) : Prop :=
  match e with
  | PreventDefault => True
  | Fetch url payload =>
      (url = "/generate-json"
       /\ exists p, payload = JObj [("prompt", JStr p)] /\ trimmed_prompt p)
      \/ (url = "/build-addon" /\ Json.truthy payload = true)
  | SaveAs f _ => addon_name f
  end.

(** ** The development server's proxy ([vite.config.ts]) *)

Module ViteConfig.

Definition backend : string := "http://localhost:8000".

(** [server.proxy], in the order written. *)
Definition proxy : list (string * string) :=
  [("/generate-json", backend);
   ("/generate-addon", backend);
   ("/build-addon", backend);
   ("/health", backend)].

(** The rule applied to a request: the first key the URL starts with. *)
Fixpoint target (rules : list (string * string)) (url : string)
  : option string :=
  match rules with
  | [] => None
  | (context, to) :: rules' =>
      if String.prefix context url then Some to else target rules' url
  end.

End ViteConfig.

Definition fetched_url (e : effect) : option string :=
  match e with
  | Fetch url _ => Some url
  | _ => None
  end.

(** * Properties *)

(** ** Strings *)

Lemma trimEnd_empty_iff (s : string) :
  JsString.trimEnd s = "" <-> JsString.all_space s = true.
Proof.
  induction s as [|c s IH]; simpl.
  - tauto.
  - destruct (JsString.is_space c); simpl.
    + destruct (JsString.trimEnd s) eqn:E; simpl.
      * split; intros _; [apply IH|]; reflexivity.
      * split; [discriminate|]. intros H. apply IH in H. discriminate.
    + split; discriminate.
Qed.

Lemma trimStart_head (s : string) :
  match JsString.trimStart s with
  | EmptyString => JsString.all_space s = true
  | String c _ => JsString.is_space c = false
  end.
Proof.
  induction s as [|c s IH]; simpl; [reflexivity|].
  destruct (JsString.is_space c) eqn:E; simpl; [|exact E].
  destruct (JsString.trimStart s); assumption.
Qed.

(** [trim] leaves nothing exactly when the string is all white space. *)
Lemma trim_empty_iff (s : string) :
  JsString.trim s = "" <-> JsString.all_space s = true.
Proof.
  unfold JsString.trim. rewrite trimEnd_empty_iff.
  pose proof (trimStart_head s) as H.
  destruct (JsString.trimStart s) as [|c t] eqn:E.
  - simpl. tauto.
  - simpl. rewrite H. simpl. split; [discriminate|].
    intros Hs. clear H. revert c t E.
    induction s as [|d s IH]; simpl in *; intros c t E; [discriminate|].
    apply andb_true_iff in Hs as [Hd Hs']. rewrite Hd in E.
    exact (IH Hs' c t E).
Qed.

Lemma is_empty_true (s : string) : JsString.is_empty s = true <-> s = "".
Proof. destruct s; simpl; split; congruence. Qed.

Lemma append_nil_r (s : string) : s ++ "" = s.
Proof. induction s; simpl; congruence. Qed.

Lemma concat_nil_sep_cons (x : string) (l : list string) :
  String.concat "" (x :: l) = x ++ String.concat "" l.
Proof.
  destruct l; simpl; [symmetry; apply append_nil_r | reflexivity].
Qed.

(** The regular-expression scan and the run-by-run reading agree; inside a
    match already replaced, the leading white-space run is swallowed. *)
Lemma replace_runs_spec (s : string) :
  JsString.replace_runs false s = FilenameSpec.collapse_whitespace s
  /\ JsString.replace_runs true s =
     match FilenameSpec.runs s with
     | (true, _) :: rest => String.concat "" (map FilenameSpec.collapse rest)
     | l => String.concat "" (map FilenameSpec.collapse l)
     end.
Proof.
  unfold FilenameSpec.collapse_whitespace.
  induction s as [|c s [IHf IHt]]; [split; reflexivity|].
  cbn [JsString.replace_runs FilenameSpec.runs].
  destruct (JsString.is_space c) eqn:Ec; rewrite ?IHf, ?IHt;
    destruct (FilenameSpec.runs s) as [|[[|] r] rest];
    cbn [Bool.eqb map]; rewrite ?concat_nil_sep_cons;
    unfold FilenameSpec.collapse; cbn [fst snd];
    split; reflexivity.
Qed.

(** The runs of [s], put back together, are [s]. *)
Lemma runs_partition (s : string) :
  String.concat "" (map snd (FilenameSpec.runs s)) = s.
Proof.
  induction s as [|c s IH]; [reflexivity|].
  cbn [FilenameSpec.runs].
  destruct (FilenameSpec.runs s) as [|[cls r] rest].
  - simpl in *. now rewrite <- IH.
  - destruct (Bool.eqb cls (JsString.is_space c));
      cbn [map snd] in *; rewrite ?concat_nil_sep_cons in *;
      simpl; now rewrite IH.
Qed.

(** ** File names *)

Section Filenames.

Variable type_error_message : option json -> string.

(** C7.  The file name is a function of the creature's name alone: the
    lower-cased name with every maximal run of white space replaced by one
    underscore, followed by [.mcaddon].  "Fire Dragon Boss" gives
    [fire_dragon_boss.mcaddon], "A   B" gives [a_b.mcaddon], and any two
    completed downloads of one creature save under the same name, whatever
    the store, the status or the payload. *)
Theorem filename_derivation :
  (forall name, download_name name = FilenameSpec.filename name)
  /\ download_name "Fire Dragon Boss" = "fire_dragon_boss.mcaddon"
  /\ download_name "A   B" = "a_b.mcaddon"
  /\ (forall captured name res content st,
        Json.get "name" captured = Some (JStr name) ->
        ok res = true ->
        body res = Fulfilled content ->
        snd (handleDownload_resume type_error_message captured
               (Fulfilled res) st)
        = [SaveAs (download_name name) content]).
Proof.
  split; [|split; [reflexivity|split; [reflexivity|]]].
  - intros name. unfold download_name, FilenameSpec.filename.
    unfold JsString.replace_space_runs.
    now rewrite (proj1 (replace_runs_spec _)).
  - intros captured name res content st Hname Hok Hbody.
    unfold handleDownload_resume, download_try, filename_of.
    now rewrite Hok, Hbody, Hname.
Qed.

End Filenames.

Lemma filename_derivation_witness :
  snd (handleDownload_resume v8_type_error zed
         (Fulfilled (mkResponse 200 (Fulfilled [x00; x01])))
         (showing zed))
  = [SaveAs "zed_two.mcaddon" [x00; x01]].
Proof.
  exact (proj2 (proj2 (proj2 (filename_derivation v8_type_error)))
           zed "Zed Two" (mkResponse 200 (Fulfilled [x00; x01]))
           [x00; x01] (showing zed) eq_refl eq_refl eq_refl).
Defined.

(** ** [handleGenerate] *)

(** C8.  With a prompt that trims to nothing, [handleGenerate] changes no
    cell of the store (so neither the state nor the error), fetches nothing
    and leaves nothing suspended. *)
Theorem generate_blank_prompt_noop (st : Store) :
  JsString.trim (prompt st) = "" ->
  after (handleGenerate_begin st) = st
  /\ filter is_fetch (effects (handleGenerate_begin st)) = []
  /\ awaiting (handleGenerate_begin st) = None
  /\ (forall o, handleGenerate o st = st).
Proof.
  intros H. unfold handleGenerate, handleGenerate_begin.
  rewrite H. simpl. repeat split.
Qed.

Lemma generate_blank_prompt_noop_witness :
  after (handleGenerate_begin (setError "old" (typed "   "))) =
    setError "old" (typed "   ")
  /\ filter is_fetch
       (effects (handleGenerate_begin (setError "old" (typed "   ")))) = []
  /\ awaiting (handleGenerate_begin (setError "old" (typed "   "))) = None
  /\ (forall o, handleGenerate o (setError "old" (typed "   ")) =
                setError "old" (typed "   ")).
Proof.
  apply (generate_blank_prompt_noop (setError "old" (typed "   "))).
  reflexivity.
Defined.

(** A prompt with something in it starts a request. *)
Lemma generate_begin_nonblank (st : Store) :
  JsString.is_empty (JsString.trim (prompt st)) = false ->
  handleGenerate_begin st =
    mkStarted (setMob JNull (setError "" (setState Loading st)))
      [PreventDefault;
       Fetch "/generate-json"
             (JObj [("prompt", JStr (JsString.trim (prompt st)))])]
      (Some AwaitGenerate).
Proof. intros H. unfold handleGenerate_begin. now rewrite H. Qed.

Lemma handleGenerate_nonblank (o : settled (Response json)) (st : Store) :
  JsString.is_empty (JsString.trim (prompt st)) = false ->
  handleGenerate o st =
    handleGenerate_resume o (setMob JNull (setError "" (setState Loading st))).
Proof.
  intros H. unfold handleGenerate. now rewrite (generate_begin_nonblank st H).
Qed.

(** C6.  After a response outside 200..299 the state is [Error].  The error
    is the body's [detail] when the body parses and [detail] is a string;
    it is [Server error (<status>)] when the body cannot be read as JSON or
    parses to a value without [detail]. *)
Theorem generate_failure_message (st : Store) (res : Response json) :
  JsString.is_empty (JsString.trim (prompt st)) = false ->
  ok res = false ->
  state (handleGenerate (Fulfilled res) st) = Error
  /\ (forall v d, body res = Fulfilled v ->
                  Json.get "detail" v = Some (JStr d) ->
                  error (handleGenerate (Fulfilled res) st) = d)
  /\ (forall v, body res = Fulfilled v ->
                Json.get "detail" v = None ->
                error (handleGenerate (Fulfilled res) st) =
                  "Server error (" ++ JsString.of_N (status res) ++ ")")
  /\ (forall err, body res = Rejected err ->
                  error (handleGenerate (Fulfilled res) st) =
                    "Server error (" ++ JsString.of_N (status res) ++ ")").
Proof.
  intros Hp Hok. rewrite (handleGenerate_nonblank _ st Hp).
  unfold handleGenerate_resume, generate_try. rewrite Hok.
  split; [reflexivity|].
  split; [|split].
  - intros v d Hb Hd. rewrite Hb. cbn. unfold failure_message. now rewrite Hd.
  - intros v Hb Hd. rewrite Hb. cbn. unfold failure_message. now rewrite Hd.
  - intros err Hb. rewrite Hb. reflexivity.
Qed.

Lemma generate_failure_message_witness :
  state (handleGenerate
           (json_reply 500 (JObj [("detail", JStr "bad prompt")]))
           (typed "fire dragon")) = Error
  /\ error (handleGenerate
              (json_reply 500 (JObj [("detail", JStr "bad prompt")]))
              (typed "fire dragon")) = "bad prompt"
  /\ error (handleGenerate (unreadable_reply 500) (typed "fire dragon"))
     = "Server error (500)".
Proof.
  pose proof (generate_failure_message (typed "fire dragon")
                (mkResponse 500
                   (Fulfilled (JObj [("detail", JStr "bad prompt")])))
                eq_refl eq_refl) as [Hs [Hd _]].
  pose proof (generate_failure_message (typed "fire dragon")
                (mkResponse 500
                   (Rejected (ErrorObject "Unexpected end of JSON input")))
                eq_refl eq_refl) as [_ [_ [_ Hr]]].
  split; [exact Hs|].
  split; [exact (Hd _ _ eq_refl eq_refl)|].
  exact (Hr _ eq_refl).
Defined.




(** C3, as stated, fails: [handleGenerate] does not look at the state.
    Called in [Loading] with a prompt, it fetches again. *)
Lemma generate_in_loading_fetches :
  ~ (forall st : Store,
       state st = Loading ->
       filter is_fetch (effects (handleGenerate_begin st)) = []
       /\ after (handleGenerate_begin st) = st).
Proof.
  intros H.
  destruct (H (mkStore "zed" Loading JNull "" false) eq_refl) as [Hf _].
  discriminate Hf.
Qed.

(** C1, as stated, fails: no token is kept.  [handleStartOver] run between
    the request and its response leaves [Idle], no creature and no error;
    the response then puts the store in [Result] with the creature. *)
Lemma late_response_overwrites_reset :
  ~ (forall (st : Store) (o : settled (Response json)),
       awaiting (handleGenerate_begin st) = Some AwaitGenerate ->
       let reset := handleStartOver (after (handleGenerate_begin st)) in
       state (handleGenerate_resume o reset) = Idle
       /\ mob (handleGenerate_resume o reset) = JNull
       /\ error (handleGenerate_resume o reset) = "").
Proof.
  intros H.
  destruct (H (typed "zed") (json_reply 200 zed) eq_refl) as [Hs _].
  discriminate Hs.
Qed.

(** ** [handleDownload] *)

(** C5, as stated, fails: [handleDownload] tests the creature only.  With a
    creature and [downloading] already set it fetches once more. *)
Lemma download_while_downloading_fetches :
  ~ (forall st : Store,
       mob st = JNull \/ downloading st = true \/ state st <> Result ->
       handleDownload_begin st = mkStarted st [] None).
Proof.
  intros H.
  specialize (H (setDownloading true (showing zed)) (or_intror (or_introl eq_refl))).
  discriminate H.
Qed.

(** The same outside [Result]. *)
Example download_outside_result_fetches :
  effects (handleDownload_begin (setState Error (showing zed)))
  = [Fetch "/build-addon" zed].
Proof. reflexivity. Qed.

Lemma download_begin_truthy (st : Store) :
  Json.truthy (mob st) = true ->
  handleDownload_begin st =
    mkStarted (setDownloading true st) [Fetch "/build-addon" (mob st)]
              (Some (AwaitDownload (mob st))).
Proof. intros H. unfold handleDownload_begin. now rewrite H. Qed.

Lemma download_begin_falsy (st : Store) :
  Json.truthy (mob st) = false ->
  handleDownload_begin st = mkStarted st [] None.
Proof. intros H. unfold handleDownload_begin. now rewrite H. Qed.

(** The continuation writes [error] and [downloading] and nothing else. *)
Lemma download_resume_frame (tem : option json -> string) (captured : json)
    (o : settled (Response blob)) (st : Store) :
  let st' := fst (handleDownload_resume tem captured o st) in
  prompt st' = prompt st /\ state st' = state st /\ mob st' = mob st
  /\ downloading st' = false.
Proof.
  unfold handleDownload_resume.
  destruct (download_try tem captured o); simpl; repeat split.
Qed.

(** ** Runs of the application *)

Lemma count_remove_nth {A : Type} (f : A -> bool) (l : list A) :
  forall (i : nat) (x : A),
    nth_error l i = Some x ->
    length (filter f l) =
      length (filter f (remove_nth i l)) + (if f x then 1 else 0).
Proof.
  induction l as [|a l IH]; intros [|i] x H; simpl in *; try discriminate.
  - injection H as ->. destruct (f x); simpl; lia.
  - specialize (IH i x H). destruct (f a); simpl; lia.
Qed.

Lemma generating_launch (c : Config) (s : started) :
  generating (launch c s) =
    generating c + match awaiting s with
                   | Some AwaitGenerate => 1
                   | _ => 0
                   end.
Proof.
  unfold generating, launch. simpl. rewrite filter_app, length_app.
  destruct (awaiting s) as [[|m]|]; reflexivity.
Qed.

Lemma fetching_addon_launch (c : Config) (s : started) :
  fetching_addon (launch c s) =
    fetching_addon c + match awaiting s with
                       | Some (AwaitDownload _) => 1
                       | _ => 0
                       end.
Proof.
  unfold fetching_addon, launch. simpl. rewrite filter_app, length_app.
  destruct (awaiting s) as [[|m]|]; reflexivity.
Qed.

Lemma coherent_init : coherent init.
Proof.
  constructor; cbv; try lia; try (split; discriminate).
  intros H. now elim H.
Qed.

Section Runs.

Variable type_error_message : option json -> string.

Lemma usable_form (st : Store) :
  form_shown st = true -> state st = Idle \/ state st = Error.
Proof. unfold form_shown. destruct (state st); auto; discriminate. Qed.

Lemma usable_result (st : Store) :
  result_shown st = true -> state st = Result /\ Json.truthy (mob st) = true.
Proof. unfold result_shown. destruct (state st); auto; discriminate. Qed.

Lemma coherent_step (c c' : Config) (e : event) :
  coherent c -> step type_error_message c e = Some c' -> coherent c'.
Proof.
  intros [G1 G2 D1 D2 M] H.
  destruct e as [v| | | |i o]; simpl in H.
  - destruct (form_shown (store c)) eqn:E; [|discriminate].
    injection H as <-. constructor; simpl; assumption.
  - destruct (form_shown (store c)) eqn:E; [|discriminate]. simpl in H.
    destruct (JsString.is_empty _) eqn:Ep; [discriminate|]. simpl in H.
    injection H as <-. rewrite (generate_begin_nonblank _ Ep).
    apply usable_form in E.
    assert (generating c = 0) as G0.
    { destruct (Nat.eq_dec (generating c) 1) as [G|G]; [|lia].
      apply G2 in G. destruct E as [E|E]; congruence. }
    constructor; rewrite ?generating_launch, ?fetching_addon_launch; simpl;
      try lia; try tauto.
    + rewrite G0. tauto.
    + rewrite Nat.add_0_r. exact D2.
    + intros X. now elim X.
  - destruct (result_shown (store c)) eqn:E; [|discriminate]. simpl in H.
    destruct (downloading (store c)) eqn:Ed; [discriminate|]. simpl in H.
    injection H as <-. apply usable_result in E as [Es Em].
    rewrite (download_begin_truthy _ Em).
    assert (fetching_addon c = 0) as D0.
    { destruct (Nat.eq_dec (fetching_addon c) 1) as [D|D]; [|lia].
      apply D2 in D. congruence. }
    constructor; rewrite ?generating_launch, ?fetching_addon_launch; simpl;
      try lia; try tauto.
    rewrite Nat.add_0_r. exact G2.
  - destruct (result_shown (store c)) eqn:E; [|discriminate].
    injection H as <-. apply usable_result in E as [Es Em].
    assert (generating c = 0) as G0.
    { destruct (Nat.eq_dec (generating c) 1) as [G|G]; [|lia].
      apply G2 in G. congruence. }
    constructor; simpl; try assumption.
    + change (generating c = 1 <-> Idle = Loading). rewrite G0.
      split; discriminate.
    + intros X. now elim X.
  - destruct (nth_error (inflight c) i) as [[|captured]|] eqn:En;
      destruct o as [g|d]; try discriminate.
    + injection H as <-.
      pose proof (count_remove_nth is_generate _ _ _ En) as Cg.
      pose proof (count_remove_nth (fun p => negb (is_generate p)) _ _ _ En)
        as Cd.
      simpl in Cg, Cd. unfold generating, fetching_addon in *.
      assert (state (store c) = Loading) as EL by (apply G2; lia).
      assert (mob (store c) = JNull) as EM.
      { destruct (mob (store c)) eqn:Em; [reflexivity| | | | |];
          (assert (state (store c) = Result) by (apply M; rewrite Em; discriminate);
           congruence). }
      constructor; unfold generating, fetching_addon; simpl; try lia.
      * unfold handleGenerate_resume.
        destruct (generate_try g); simpl; split; (lia || discriminate).
      * unfold handleGenerate_resume.
        destruct (generate_try g); simpl; rewrite <- D2; lia.
      * unfold creature_only_in_result, handleGenerate_resume.
        destruct (generate_try g); simpl; [reflexivity|].
        intros X. now elim X.
    + destruct (handleDownload_resume type_error_message captured d (store c))
        as [st done] eqn:Er.
      injection H as <-.
      pose proof (download_resume_frame type_error_message captured d (store c))
        as F. rewrite Er in F. simpl in F. destruct F as (Fp & Fs & Fm & Fd).
      pose proof (count_remove_nth is_generate _ _ _ En) as Cg.
      pose proof (count_remove_nth (fun p => negb (is_generate p)) _ _ _ En)
        as Cd.
      simpl in Cg, Cd. unfold generating, fetching_addon in *.
      constructor; unfold generating, fetching_addon; simpl; try lia.
      * rewrite Fs, <- G2. lia.
      * rewrite Fd. split; [lia|discriminate].
      * unfold creature_only_in_result. now rewrite Fs, Fm.
Qed.

Lemma coherent_run (es : list event) :
  forall c c' : Config,
    coherent c -> run type_error_message c es = Some c' -> coherent c'.
Proof.
  induction es as [|e es IH]; intros c c' Hc H; simpl in H.
  - now injection H as <-.
  - destruct (step type_error_message c e) as [c1|] eqn:E; [|discriminate].
    exact (IH c1 c' (coherent_step c c1 e Hc E) H).
Qed.

Lemma reachable_coherent (es : list event) (c : Config) :
  run type_error_message init es = Some c -> coherent c.
Proof. exact (coherent_run es init c coherent_init). Qed.

(** A response is applied to whatever store it meets: the continuation ends
    in [Result] or in [Error], never back where it found the store. *)
Lemma generate_resume_applies (o : settled (Response json)) (st : Store) :
  state (handleGenerate_resume o st) = Result
  \/ state (handleGenerate_resume o st) = Error.
Proof.
  unfold handleGenerate_resume. destruct (generate_try o); simpl; auto.
Qed.

(** What the continuation writes, for each way the request can settle and
    whatever store [st] it meets: the creature with [Result], or the message
    with [Error]; the cells it does not write are left as found. *)
Lemma generate_resume_cases (st : Store) :
  (forall res data,
     ok res = true -> body res = Fulfilled data ->
     handleGenerate_resume (Fulfilled res) st =
       mkStore (prompt st) Result data (error st) (downloading st))
  /\ (forall res err,
        ok res = true -> body res = Rejected err ->
        handleGenerate_resume (Fulfilled res) st =
          mkStore (prompt st) Error (mob st)
                  (message_or "Something went wrong" err) (downloading st))
  /\ (forall res v d,
        ok res = false -> body res = Fulfilled v ->
        Json.get "detail" v = Some (JStr d) ->
        handleGenerate_resume (Fulfilled res) st =
          mkStore (prompt st) Error (mob st) d (downloading st))
  /\ (forall res,
        ok res = false ->
        match body res with
        | Fulfilled v => Json.get "detail" v = None
        | Rejected _ => True
        end ->
        handleGenerate_resume (Fulfilled res) st =
          mkStore (prompt st) Error (mob st)
                  ("Server error (" ++ JsString.of_N (status res) ++ ")")
                  (downloading st))
  /\ (forall err,
        handleGenerate_resume (Rejected err) st =
          mkStore (prompt st) Error (mob st)
                  (message_or "Something went wrong" err) (downloading st)).
Proof.
  unfold handleGenerate_resume, generate_try.
  split; [|split; [|split; [|split]]].
  - intros res data Hok Hb. now rewrite Hok, Hb.
  - intros res err Hok Hb. now rewrite Hok, Hb.
  - intros res v d Hok Hb Hd. rewrite Hok, Hb. cbn.
    unfold failure_message. now rewrite Hd.
  - intros res Hok Hd. rewrite Hok. cbn. unfold failure_message.
    destruct (body res) as [v|err]; [now rewrite Hd|reflexivity].
  - intros err. reflexivity.
Qed.

(** The continuation ends in [Result] for a response in 200..299 whose body
    parses, and for nothing else. *)
Lemma generate_resume_result_iff (o : settled (Response json)) (st : Store) :
  state (handleGenerate_resume o st) = Result <->
  exists res data,
    o = Fulfilled res /\ ok res = true /\ body res = Fulfilled data.
Proof.
  unfold handleGenerate_resume, generate_try.
  destruct o as [res|err].
  - destruct (ok res) eqn:Hok.
    + destruct (body res) as [data|err] eqn:Hb; cbn; split.
      * intros _. now exists res, data.
      * reflexivity.
      * discriminate.
      * intros (r & d & E & Eo & Eb). injection E as <-. congruence.
    + cbn. split; [discriminate|].
      intros (r & d & E & Eo & Eb). injection E as <-. congruence.
  - cbn. split; [discriminate|].
    intros (r & d & E & Eo & Eb). discriminate.
Qed.

(** C1, amended.  The component keeps no token and discards no response:
    whatever store the response meets, also the one a reset has left, a
    response in 200..299 whose body parses sets [Result] and the parsed
    creature, and every other outcome sets [Error]; the error is then the
    thrown message for a rejected fetch or an unreadable body of a 200..299
    response, and for a response outside 200..299 the body's [detail] when
    that is a string, the status message when the body is unreadable or has
    no [detail].
    What keeps a reset from being overwritten is the view: in every run of
    the rendered controls from the initial state, while a generation request
    is in flight the state is [Loading], where Start Over is not rendered,
    so no [handleStartOver] can come between a request and its response. *)
Theorem no_start_over_while_generating (es : list event) (c : Config) :
  run type_error_message init es = Some c ->
  0 < generating c ->
  (forall o st, state (handleGenerate_resume o st) = Result
                \/ state (handleGenerate_resume o st) = Error)
  /\ (forall o st,
        state (handleGenerate_resume o st) = Result <->
        exists res data,
          o = Fulfilled res /\ ok res = true /\ body res = Fulfilled data)
  /\ (forall st res data,
        ok res = true -> body res = Fulfilled data ->
        handleGenerate_resume (Fulfilled res) st =
          mkStore (prompt st) Result data (error st) (downloading st))
  /\ (forall st res data,
        ok res = true -> body res = Fulfilled data ->
        handleGenerate_resume (Fulfilled res) (handleStartOver st) =
          mkStore "" Result data "" (downloading st))
  /\ (forall st res err,
        ok res = true -> body res = Rejected err ->
        handleGenerate_resume (Fulfilled res) st =
          mkStore (prompt st) Error (mob st)
                  (message_or "Something went wrong" err) (downloading st))
  /\ (forall st res v d,
        ok res = false -> body res = Fulfilled v ->
        Json.get "detail" v = Some (JStr d) ->
        handleGenerate_resume (Fulfilled res) st =
          mkStore (prompt st) Error (mob st) d (downloading st))
  /\ (forall st res,
        ok res = false ->
        match body res with
        | Fulfilled v => Json.get "detail" v = None
        | Rejected _ => True
        end ->
        handleGenerate_resume (Fulfilled res) st =
          mkStore (prompt st) Error (mob st)
                  ("Server error (" ++ JsString.of_N (status res) ++ ")")
                  (downloading st))
  /\ (forall st err,
        handleGenerate_resume (Rejected err) st =
          mkStore (prompt st) Error (mob st)
                  (message_or "Something went wrong" err) (downloading st))
  /\ state (store c) = Loading
  /\ usable StartOverButton (store c) = false
  /\ step type_error_message c ClickStartOver = None.
Proof.
  intros Hrun Hg. destruct (reachable_coherent es c Hrun) as [G1 G2 _ _ _].
  assert (state (store c) = Loading) as HL by (apply G2; lia).
  assert (usable StartOverButton (store c) = false) as HU
    by (simpl; unfold result_shown; now rewrite HL).
  split; [exact generate_resume_applies|].
  split; [exact generate_resume_result_iff|].
  split; [intros st; exact (proj1 (generate_resume_cases st))|].
  split.
  { intros st res data Hok Hb.
    exact (proj1 (generate_resume_cases (handleStartOver st))
             res data Hok Hb). }
  split; [intros st; exact (proj1 (proj2 (generate_resume_cases st)))|].
  split;
    [intros st; exact (proj1 (proj2 (proj2 (generate_resume_cases st))))|].
  split;
    [intros st;
     exact (proj1 (proj2 (proj2 (proj2 (generate_resume_cases st)))))|].
  split;
    [intros st;
     exact (proj2 (proj2 (proj2 (proj2 (generate_resume_cases st)))))|].
  repeat split; try assumption.
  simpl. simpl in HU. now rewrite HU.
Qed.

(** C3, amended.  [handleGenerate] has no guard on the state; the second
    request is kept out by the view.  In every run of the rendered controls
    from the initial state, [Loading] means exactly one generation request in
    flight, the submit button is not there, and a Submit event does not
    happen. *)
Theorem no_submit_while_loading (es : list event) (c : Config) :
  run type_error_message init es = Some c ->
  state (store c) = Loading ->
  (forall st, JsString.is_empty (JsString.trim (prompt st)) = false ->
              awaiting (handleGenerate_begin st) = Some AwaitGenerate)
  /\ generating c = 1
  /\ usable SubmitButton (store c) = false
  /\ step type_error_message c Submit = None.
Proof.
  intros Hrun HL. destruct (reachable_coherent es c Hrun) as [_ G2 _ _ _].
  assert (usable SubmitButton (store c) = false) as HU
    by (simpl; unfold form_shown; now rewrite HL).
  split; [|repeat split; try assumption].
  - intros st Hp. now rewrite (generate_begin_nonblank st Hp).
  - now apply G2.
  - simpl. simpl in HU. now rewrite HU.
Qed.

(** C5, amended.  Without a creature [handleDownload] returns at once: no
    cell changes and nothing is fetched.  The other two rejections are the
    view's: the download button is rendered only in [Result] with a creature
    and disabled while [downloading], so in each of the three cases a click
    does not happen. *)
Theorem download_guards (c : Config) :
  Json.truthy (mob (store c)) = false
  \/ downloading (store c) = true
  \/ state (store c) <> Result ->
  step type_error_message c ClickDownload = None
  /\ (Json.truthy (mob (store c)) = false ->
      handleDownload_begin (store c) = mkStarted (store c) [] None
      /\ forall o, handleDownload type_error_message o (store c) = store c)
  /\ (Json.truthy (mob (store c)) = true ->
      awaiting (handleDownload_begin (store c)) =
        Some (AwaitDownload (mob (store c)))).
Proof.
  intros H. split; [|split].
  3: { intros Hm. now rewrite (download_begin_truthy _ Hm). }
  - simpl. unfold result_shown.
    destruct H as [H|[H|H]].
    + rewrite H. now destruct (state (store c)).
    + rewrite H. now rewrite andb_false_r.
    + destruct (state (store c)); try reflexivity. now elim H.
  - intros Hm. unfold handleDownload.
    rewrite (download_begin_falsy _ Hm). split; reflexivity.
Qed.

(** C10.  A download that starts and fails leaves [prompt], [state] and
    [mob] as they were and [downloading] false, whatever the outcome; the
    error is [Download failed (<status>)] for a response outside 200..299
    and the thrown message for a fetch or a body read that rejects. *)
Theorem failed_download_frame (st : Store) :
  Json.truthy (mob st) = true ->
  (forall o,
     prompt (handleDownload type_error_message o st) = prompt st
     /\ state (handleDownload type_error_message o st) = state st
     /\ mob (handleDownload type_error_message o st) = mob st
     /\ downloading (handleDownload type_error_message o st) = false)
  /\ (forall res, ok res = false ->
        handleDownload type_error_message (Fulfilled res) st =
          mkStore (prompt st) (state st) (mob st)
                  ("Download failed (" ++ JsString.of_N (status res) ++ ")")
                  false)
  /\ (forall err,
        handleDownload type_error_message (Rejected err) st =
          mkStore (prompt st) (state st) (mob st)
                  (message_or "Download failed" err) false)
  /\ (forall res err, ok res = true -> body res = Rejected err ->
        handleDownload type_error_message (Fulfilled res) st =
          mkStore (prompt st) (state st) (mob st)
                  (message_or "Download failed" err) false).
Proof.
  intros Hm. unfold handleDownload. rewrite (download_begin_truthy _ Hm).
  cbn [awaiting after]. split; [|split; [|split]].
  - intros o.
    exact (download_resume_frame type_error_message (mob st) o
             (setDownloading true st)).
  - intros res Hok. unfold handleDownload_resume, download_try.
    now rewrite Hok.
  - intros err. reflexivity.
  - intros res err Hok Hb. unfold handleDownload_resume, download_try.
    now rewrite Hok, Hb.
Qed.

(** C9.  Each handler, run to completion from a store in which a creature
    is held only in [Result], ends in such a store, whatever the network
    answers. *)
Theorem creature_only_in_result_preserved (st : Store) :
  creature_only_in_result st ->
  (forall o, creature_only_in_result (handleGenerate o st))
  /\ (forall o, creature_only_in_result
                  (handleDownload type_error_message o st))
  /\ creature_only_in_result (handleStartOver st).
Proof.
  intros Hinv. split; [|split].
  - intros o. unfold handleGenerate, handleGenerate_begin.
    destruct (JsString.is_empty _); cbn [awaiting after]; [exact Hinv|].
    unfold handleGenerate_resume, creature_only_in_result.
    destruct (generate_try o); simpl; [reflexivity|].
    intros X. now elim X.
  - intros o. unfold handleDownload, handleDownload_begin.
    destruct (Json.truthy (mob st)); cbn [negb awaiting after]; [|exact Hinv].
    destruct (download_resume_frame type_error_message (mob st) o
                (setDownloading true st)) as (_ & Fs & Fm & _).
    unfold creature_only_in_result. rewrite Fs, Fm. exact Hinv.
  - unfold creature_only_in_result. simpl. intros X. now elim X.
Qed.

(** The same, read from the state: outside [Result] there is no creature. *)
Lemma creature_only_in_result_alt (st : Store) :
  creature_only_in_result st <-> (state st <> Result -> mob st = JNull).
Proof.
  unfold creature_only_in_result. split; intros H X.
  - destruct (mob st) eqn:E; [reflexivity| | | | |];
      elim X; apply H; discriminate.
  - destruct (state st) eqn:E; [| |reflexivity|];
      elim X; apply H; discriminate.
Qed.

(** It also holds along every run of the rendered controls, with requests
    and responses interleaved. *)
Lemma creature_only_in_result_reachable (es : list event) (c : Config) :
  run type_error_message init es = Some c ->
  creature_only_in_result (store c).
Proof. intros H. exact (creature_in_result c (reachable_coherent es c H)). Qed.

(** [handleGenerate] clears the error before it fetches. *)
Lemma generate_begin_clears_error (st : Store) :
  awaiting (handleGenerate_begin st) = Some AwaitGenerate ->
  error (after (handleGenerate_begin st)) = "".
Proof.
  unfold handleGenerate_begin.
  destruct (JsString.is_empty _); simpl; [discriminate|reflexivity].
Qed.

(** [handleDownload] does not touch it. *)
Lemma download_begin_keeps_error (st : Store) :
  error (after (handleDownload_begin st)) = error st.
Proof. unfold handleDownload_begin. now destruct (Json.truthy _). Qed.

(** C2.  The download half fails on the code.  Generate a creature, fail a
    download with status 500, click Download again: the second request goes
    out with [downloading] set while the error of the first attempt is
    still in the store. *)
Theorem download_keeps_stale_error :
  let st := mkStore "zed" Result zed "Download failed (500)" false in
  option_map store
    (run type_error_message init
       [Change "zed"; Submit;
        Settle 0 (GenerateSettles (json_reply 200 zed));
        ClickDownload;
        Settle 0 (DownloadSettles (Fulfilled (mkResponse 500 (Fulfilled []))))])
  = Some st
  /\ usable DownloadButton st = true
  /\ handleDownload_begin st =
       mkStarted (mkStore "zed" Result zed "Download failed (500)" true)
                 [Fetch "/build-addon" zed]
                 (Some (AwaitDownload zed)).
Proof. repeat split. Qed.

End Runs.

(** ** The theorems at work on sample runs *)

Lemma no_start_over_while_generating_witness :
  handleGenerate_resume (json_reply 200 zed)
    (handleStartOver (store zed_loading))
  = mkStore "" Result zed "" false
  /\ state (store zed_loading) = Loading
  /\ usable StartOverButton (store zed_loading) = false
  /\ step v8_type_error zed_loading ClickStartOver = None.
Proof.
  assert (0 < generating zed_loading) as Hg by (unfold generating; simpl; lia).
  destruct (no_start_over_while_generating v8_type_error zed_requested
              zed_loading eq_refl Hg)
    as (_ & _ & _ & Hreset & _ & _ & _ & _ & Hview).
  split; [|exact Hview].
  exact (Hreset (store zed_loading) (mkResponse 200 (Fulfilled zed)) zed
           eq_refl eq_refl).
Defined.

Lemma no_submit_while_loading_witness :
  generating zed_loading = 1
  /\ usable SubmitButton (store zed_loading) = false
  /\ step v8_type_error zed_loading Submit = None.
Proof.
  refine (proj2 (no_submit_while_loading v8_type_error zed_requested
                   zed_loading _ _)).
  - reflexivity.
  - reflexivity.
Defined.

Lemma download_guards_witness :
  step v8_type_error
       (mkConfig (setDownloading true (showing zed)) [AwaitDownload zed]
          [Fetch "/build-addon" zed])
       ClickDownload = None
  /\ step v8_type_error init ClickDownload = None
  /\ handleDownload_begin initial = mkStarted initial [] None.
Proof.
  split; [|split].
  - apply (download_guards v8_type_error
             (mkConfig (setDownloading true (showing zed)) [AwaitDownload zed]
                [Fetch "/build-addon" zed])).
    right. left. reflexivity.
  - exact (proj1 (download_guards v8_type_error init (or_introl eq_refl))).
  - exact (proj1 (proj1 (proj2 (download_guards v8_type_error init
                                  (or_introl eq_refl))) eq_refl)).
Defined.

Lemma failed_download_frame_witness :
  handleDownload v8_type_error
    (Fulfilled (mkResponse 503 (Fulfilled []))) (showing zed)
  = mkStore "zed" Result zed "Download failed (503)" false.
Proof.
  exact (proj1 (proj2 (failed_download_frame v8_type_error (showing zed)
                         eq_refl))
           (mkResponse 503 (Fulfilled [])) eq_refl).
Defined.

Lemma creature_only_in_result_preserved_witness :
  creature_only_in_result
    (handleGenerate (unreadable_reply 502) (showing zed))
  /\ creature_only_in_result
       (handleDownload v8_type_error (Rejected NotAnError) (showing zed))
  /\ creature_only_in_result (handleStartOver (showing zed)).
Proof.
  destruct (creature_only_in_result_preserved v8_type_error (showing zed))
    as [Hg [Hd Hs]].
  - intros _. reflexivity.
  - split; [apply Hg|split; [apply Hd|exact Hs]].
Defined.

(** * Further properties of the component *)

(** ** [trim], [toLowerCase] and the white-space scan *)

Lemma lower_char_idempotent (c : ascii) :
  JsString.lower_char (JsString.lower_char c) = JsString.lower_char c.
Proof.
  destruct c as [[] [] [] [] [] [] [] []]; vm_compute; reflexivity.
Qed.




Lemma has_space_app (a b : string) :
  has_space (a ++ b) = has_space a || has_space b.
Proof.
  induction a as [|c a IH]; simpl; [reflexivity|].
  now rewrite IH, orb_assoc.
Qed.

Lemma replace_runs_no_space (b : bool) (s : string) :
  has_space (JsString.replace_runs b s) = false.
Proof.
  revert b. induction s as [|c s IH]; intros b; simpl; [reflexivity|].
  destruct (JsString.is_space c) eqn:E.
  - destruct b; simpl; apply IH.
  - simpl. now rewrite E, IH.
Qed.

Lemma replace_runs_lower (b : bool) (s : string) :
  JsString.toLowerCase (JsString.replace_runs b (JsString.toLowerCase s)) =
    JsString.replace_runs b (JsString.toLowerCase s).
Proof.
  revert b. induction s as [|c s IH]; intros b; simpl; [reflexivity|].
  destruct (JsString.is_space (JsString.lower_char c)).
  - destruct b; simpl; now rewrite IH.
  - simpl. now rewrite lower_char_idempotent, IH.
Qed.

Lemma trimStart_split (s : string) :
  exists l, s = l ++ JsString.trimStart s /\ JsString.all_space l = true.
Proof.
  induction s as [|c s [l [Hs Hl]]]; simpl.
  - now exists "".
  - destruct (JsString.is_space c) eqn:E.
    + exists (String c l). simpl. rewrite E, Hl. now rewrite <- Hs.
    + now exists "".
Qed.

Lemma trimEnd_split (s : string) :
  exists r, s = JsString.trimEnd s ++ r /\ JsString.all_space r = true.
Proof.
  induction s as [|c s [r [Hs Hr]]]; simpl.
  - now exists "".
  - destruct (JsString.is_space c) eqn:E; simpl.
    + destruct (JsString.trimEnd s) eqn:Et; simpl.
      * exists (String c r). simpl in *. rewrite E, Hr. now rewrite <- Hs.
      * exists r. simpl in *. now rewrite <- Hs.
    + exists r. simpl. now rewrite <- Hs.
Qed.

Lemma trimEnd_last (s : string) :
  match last_char (JsString.trimEnd s) with
  | Some d => JsString.is_space d = false
  | None => JsString.trimEnd s = ""
  end.
Proof.
  induction s as [|c s IH]; simpl; [reflexivity|].
  destruct (JsString.is_space c) eqn:E; simpl.
  - destruct (JsString.trimEnd s) as [|d t] eqn:Et; simpl; [reflexivity|].
    simpl in IH. destruct (last_char t); exact IH.
  - destruct (last_char (JsString.trimEnd s)); [exact IH|exact E].
Qed.

Lemma trimEnd_first (s : string) :
  JsString.trimEnd s = "" \/ first_char (JsString.trimEnd s) = first_char s.
Proof.
  destruct s as [|c s]; simpl; [now left|].
  destruct (JsString.is_space c && JsString.is_empty (JsString.trimEnd s));
    [now left|now right].
Qed.

Lemma trimStart_fixed (s : string) :
  match first_char s with
  | Some c => JsString.is_space c = false
  | None => True
  end -> JsString.trimStart s = s.
Proof. destruct s as [|c s]; simpl; [reflexivity|]. now intros ->. Qed.

Lemma trimEnd_idempotent (s : string) :
  JsString.trimEnd (JsString.trimEnd s) = JsString.trimEnd s.
Proof.
  induction s as [|c s IH]; simpl; [reflexivity|].
  destruct (JsString.is_space c && JsString.is_empty (JsString.trimEnd s))
    eqn:E; [reflexivity|].
  simpl. now rewrite IH, E.
Qed.

Lemma trim_first (s : string) :
  match first_char (JsString.trim s) with
  | Some c => JsString.is_space c = false
  | None => JsString.trim s = ""
  end.
Proof.
  unfold JsString.trim. pose proof (trimStart_head s) as H.
  destruct (trimEnd_first (JsString.trimStart s)) as [E|E].
  - now rewrite E.
  - rewrite E. destruct (JsString.trimStart s) as [|c t]; simpl; [reflexivity|].
    exact H.
Qed.

Lemma trim_idempotent (s : string) :
  JsString.trim (JsString.trim s) = JsString.trim s.
Proof.
  pose proof (trim_first s) as H.
  unfold JsString.trim at 1.
  rewrite trimStart_fixed.
  - unfold JsString.trim. apply trimEnd_idempotent.
  - destruct (first_char (JsString.trim s)); [exact H|exact I].
Qed.

(** ** [handleGenerate]: what it sends, when it sends it *)

(** X1.  The request carries the typed prompt without the white space
    around it: the prompt is white space, the text sent, white space, and
    the text sent begins and ends with a character that is not white
    space. *)
Theorem generate_sends_trimmed_prompt (st : Store) :
  JsString.is_empty (JsString.trim (prompt st)) = false ->
  exists p l r c d,
    effects (handleGenerate_begin st) =
      [PreventDefault; Fetch "/generate-json" (JObj [("prompt", JStr p)])]
    /\ prompt st = l ++ p ++ r
    /\ JsString.all_space l = true /\ JsString.all_space r = true
    /\ first_char p = Some c /\ JsString.is_space c = false
    /\ last_char p = Some d /\ JsString.is_space d = false.
Proof.
  intros Hp. rewrite (generate_begin_nonblank st Hp). cbn [effects].
  destruct (trimStart_split (prompt st)) as [l [Hl Hls]].
  destruct (trimEnd_split (JsString.trimStart (prompt st))) as [r [Hr Hrs]].
  pose proof (trim_first (prompt st)) as Hf.
  pose proof (trimEnd_last (JsString.trimStart (prompt st))) as Hd.
  fold (JsString.trim (prompt st)) in Hr, Hd.
  destruct (first_char (JsString.trim (prompt st))) as [c|] eqn:Ec;
    [|rewrite Hf in Hp; discriminate].
  destruct (last_char (JsString.trim (prompt st))) as [d|] eqn:Ed;
    [|rewrite Hd in Hp; discriminate].
  exists (JsString.trim (prompt st)), l, r, c, d.
  repeat split; try assumption.
  rewrite <- Hr. exact Hl.
Qed.

(** X2.  While the form is shown, the submit button is enabled exactly when
    [handleGenerate] would send a request, which is exactly when the prompt
    has a character that is not white space. *)
Theorem submit_enabled_iff_request (st : Store) :
  form_shown st = true ->
  (usable SubmitButton st = true <->
     awaiting (handleGenerate_begin st) = Some AwaitGenerate)
  /\ (usable SubmitButton st = true <->
       JsString.all_space (prompt st) = false)
  /\ (usable SubmitButton st = false ->
       handleGenerate_begin st = mkStarted st [PreventDefault] None).
Proof.
  intros Hf. simpl. rewrite Hf. simpl. unfold handleGenerate_begin.
  pose proof (trim_empty_iff (prompt st)) as Ht.
  destruct (JsString.trim (prompt st)) as [|c t] eqn:E; simpl.
  - assert (JsString.all_space (prompt st) = true) as -> by now apply Ht.
    repeat split; try discriminate.
  - destruct (JsString.all_space (prompt st)) eqn:Ea.
    + destruct Ht as [_ Ht]. now specialize (Ht eq_refl).
    + repeat split; discriminate.
Qed.

(** X3.  A request that was sent ends in [Result] exactly when the response
    has a status in 200..299 and a body that parses; in every other case it
    ends in [Error] with no creature.  Neither the prompt nor the
    [downloading] flag is touched. *)
Theorem generate_outcome (o : settled (Response json)) (st : Store) :
  JsString.is_empty (JsString.trim (prompt st)) = false ->
  (state (handleGenerate o st) = Result <->
     exists res data,
       o = Fulfilled res /\ ok res = true /\ body res = Fulfilled data)
  /\ (state (handleGenerate o st) <> Result ->
       state (handleGenerate o st) = Error
       /\ mob (handleGenerate o st) = JNull)
  /\ prompt (handleGenerate o st) = prompt st
  /\ downloading (handleGenerate o st) = downloading st.
Proof.
  intros Hp. rewrite (handleGenerate_nonblank o st Hp).
  unfold handleGenerate_resume, generate_try.
  destruct o as [res|err].
  - destruct (ok res) eqn:Hok.
    + destruct (body res) as [data|err] eqn:Hb; cbn.
      * repeat split; auto; try congruence.
        intros _. now exists res, data.
      * repeat split; auto; try discriminate.
        intros (r & d & E & Eo & Eb). injection E as <-. congruence.
    + cbn. repeat split; auto; try discriminate.
      intros (r & d & E & Eo & Eb). injection E as <-. congruence.
  - cbn. repeat split; auto; try discriminate.
    intros (r & d & E & Eo & Eb). discriminate.
Qed.

(** X4.  When the fetch itself rejects, the form comes back with the
    rejection's message, or with "Something went wrong" if what was thrown
    is not an [Error]. *)
Theorem generate_transport_failure (err : thrown) (st : Store) :
  JsString.is_empty (JsString.trim (prompt st)) = false ->
  handleGenerate (Rejected err) st =
    mkStore (prompt st) Error JNull
      match err with
      | ErrorObject m => m
      | NotAnError => "Something went wrong"
      end
      (downloading st)
  /\ form_shown (handleGenerate (Rejected err) st) = true.
Proof.
  intros Hp. rewrite (handleGenerate_nonblank _ st Hp).
  destruct err; split; reflexivity.
Qed.

Lemma ToString_objects (objects : list (list (string * json))) :
  Json.ToString (JArr (map JObj objects)) =
    String.concat "," (map (fun _ => "[object Object]") objects).
Proof.
  cbn [Json.ToString].
  induction objects as [|ms objects IH]; [reflexivity|].
  cbn [map String.concat]. rewrite <- IH.
  destruct objects; reflexivity.
Qed.

(** X5.  A [detail] that is not a string is shown as JavaScript prints it:
    an object that has no member [toString] of its own as
    [[object Object]] whatever else it holds, a list of such objects as that
    text once per object with commas between; a [detail] of [null] falls
    back on the status message.  (The string conversion of an object with
    its own [toString], which JSON cannot make callable, throws instead.) *)
Theorem generate_failure_structured_detail
    (st : Store) (res : Response json) (v : json) :
  JsString.is_empty (JsString.trim (prompt st)) = false ->
  ok res = false ->
  body res = Fulfilled v ->
  (forall ms, Json.get "detail" v = Some (JObj ms) ->
     Json.lookup "toString" ms = None ->
     error (handleGenerate (Fulfilled res) st) = "[object Object]")
  /\ (forall objects, Json.get "detail" v = Some (JArr (map JObj objects)) ->
       Forall (fun ms => Json.lookup "toString" ms = None) objects ->
       error (handleGenerate (Fulfilled res) st) =
         String.concat "," (map (fun _ => "[object Object]") objects))
  /\ (Json.get "detail" v = Some JNull ->
       error (handleGenerate (Fulfilled res) st) =
         "Server error (" ++ JsString.of_N (status res) ++ ")").
Proof.
  intros Hp Hok Hb. rewrite (handleGenerate_nonblank _ st Hp).
  unfold handleGenerate_resume, generate_try. rewrite Hok, Hb.
  cbn [message_or setState setError error]. unfold failure_message.
  split; [|split].
  - intros ms -> _. reflexivity.
  - intros objects -> _. destruct objects as [|ms objects].
    + reflexivity.
    + apply (ToString_objects (ms :: objects)).
  - intros ->. reflexivity.
Qed.

Lemma to_uint_nonnil (n : N) : N.to_uint n <> Decimal.Nil.
Proof.
  destruct n as [|p]; [discriminate|].
  apply DecimalPos.Unsigned.to_uint_nonnil.
Qed.

Lemma of_N_inj (a b : N) : JsString.of_N a = JsString.of_N b -> a = b.
Proof.
  unfold JsString.of_N. intros H.
  apply (f_equal NilZero.uint_of_string) in H.
  rewrite !NilZero.usu in H by apply to_uint_nonnil.
  injection H as H. now apply DecimalN.Unsigned.to_uint_inj.
Qed.

Lemma append_inj_r (x y z : string) : x ++ z = y ++ z -> x = y.
Proof.
  intros H.
  assert (String.length x = String.length y) as Hl.
  { apply (f_equal String.length) in H.
    assert (forall a b, String.length (a ++ b) =
                        String.length a + String.length b) as L
      by (induction a; simpl; intros; [|rewrite IHa]; reflexivity).
    rewrite !L in H. lia. }
  revert y H Hl. induction x as [|c x IH]; intros [|d y] H Hl;
    simpl in *; try discriminate; [reflexivity|].
  injection H as -> H. f_equal. apply IH; [exact H|lia].
Qed.

(** X6.  The message of a failed request names its status: different
    statuses give different [Server error (...)] messages and different
    [Download failed (...)] messages. *)
Theorem status_messages_distinct (a b : N) :
  a <> b ->
  server_error a <> server_error b
  /\ download_error a <> download_error b.
Proof.
  intros Hab. unfold server_error, download_error.
  split; intros H; simpl in H; injection H as H;
    apply append_inj_r in H; apply of_N_inj in H; contradiction.
Qed.

(** X18.  Nothing of the past survives a generation that was sent: the
    store it ends in is the same whatever state, creature and error it
    started from. *)
Theorem generate_independent_of_past
    (o : settled (Response json)) (st : Store)
    (s : AppState) (m : json) (e : string) :
  JsString.is_empty (JsString.trim (prompt st)) = false ->
  handleGenerate o (mkStore (prompt st) s m e (downloading st)) =
    handleGenerate o st.
Proof.
  intros Hp.
  rewrite (handleGenerate_nonblank o st Hp).
  rewrite (handleGenerate_nonblank o
             (mkStore (prompt st) s m e (downloading st)) Hp).
  unfold handleGenerate_resume. destruct (generate_try o); reflexivity.
Qed.

(** ** [handleDownload]: the other outcomes *)

Section Downloads.

Variable type_error_message : option json -> string.

(** X7.  A download that completes changes one cell, [downloading], back to
    [false]: state, creature and prompt stay, and so does the error, also
    one left by an earlier failed attempt. *)
Theorem download_success_frame
    (st : Store) (name : string) (res : Response blob) (content : blob) :
  Json.truthy (mob st) = true ->
  Json.get "name" (mob st) = Some (JStr name) ->
  ok res = true ->
  body res = Fulfilled content ->
  handleDownload type_error_message (Fulfilled res) st =
    mkStore (prompt st) (state st) (mob st) (error st) false
  /\ handleDownload_resume type_error_message (mob st) (Fulfilled res)
       (after (handleDownload_begin st))
     = (mkStore (prompt st) (state st) (mob st) (error st) false,
        [SaveAs (download_name name) content]).
Proof.
  intros Hm Hn Hok Hb. unfold handleDownload.
  rewrite (download_begin_truthy _ Hm). cbn [awaiting after].
  unfold handleDownload_resume, download_try, filename_of.
  rewrite Hok, Hb, Hn. split; reflexivity.
Qed.

(** X8.  A creature whose [name] is not a string is never saved: the
    request is sent all the same, and whatever comes back nothing is
    written; when the payload arrives, the error is the engine's
    [TypeError] message. *)
Theorem download_without_name (st : Store) :
  Json.truthy (mob st) = true ->
  (forall name, Json.get "name" (mob st) <> Some (JStr name)) ->
  effects (handleDownload_begin st) = [Fetch "/build-addon" (mob st)]
  /\ (forall o st',
        snd (handleDownload_resume type_error_message (mob st) o st') = [])
  /\ (forall res content,
        ok res = true -> body res = Fulfilled content ->
        error (handleDownload type_error_message (Fulfilled res) st) =
          type_error_message (Json.get "name" (mob st))).
Proof.
  intros Hm Hn. rewrite (download_begin_truthy _ Hm). cbn [effects].
  assert (exists m, filename_of type_error_message (mob st)
                    = inr (ErrorObject m)
                    /\ m = type_error_message (Json.get "name" (mob st)))
    as (m & Hf & Em).
  { unfold filename_of.
    destruct (Json.get "name" (mob st)) as [[| | |name| |]|] eqn:E;
      try (eexists; split; reflexivity).
    now elim (Hn name). }
  split; [reflexivity|split].
  - intros o st'. unfold handleDownload_resume, download_try. rewrite Hf.
    destruct o as [res|err]; [|reflexivity].
    destruct (ok res); [|reflexivity].
    destruct (body res); reflexivity.
  - intros res content Hok Hb. unfold handleDownload.
    rewrite (download_begin_truthy _ Hm). cbn [awaiting after].
    unfold handleDownload_resume, download_try. rewrite Hok, Hb, Hf, Em.
    reflexivity.
Qed.

End Downloads.

(** ** File names *)

Lemma string_length_app (a b : string) :
  String.length (a ++ b) = String.length a + String.length b.
Proof. induction a as [|c a IH]; simpl; [reflexivity|now rewrite IH]. Qed.

Lemma replace_runs_length (b : bool) (s : string) :
  String.length (JsString.replace_runs b s) <= String.length s.
Proof.
  revert b. induction s as [|c s IH]; intros b; simpl; [lia|].
  destruct (JsString.is_space c); [destruct b|]; simpl;
    match goal with
    | |- context [JsString.replace_runs ?x s] => specialize (IH x)
    end; lia.
Qed.

Lemma download_name_is_addon_name (name : string) :
  addon_name (download_name name).
Proof.
  unfold download_name, JsString.replace_space_runs.
  exists (JsString.replace_runs false (JsString.toLowerCase name)).
  split; [reflexivity|]. split.
  - apply replace_runs_no_space.
  - apply replace_runs_lower.
Qed.

(** X9.  Every file name is a lower-case stem without white space followed
    by [.mcaddon]; the scan never lengthens, so the file name is at most
    the eight characters of the extension longer than the lower-cased
    name. *)
Theorem download_name_shape (name : string) :
  addon_name (download_name name)
  /\ String.length (download_name name) <=
       String.length (JsString.toLowerCase name) + 8.
Proof.
  split; [apply download_name_is_addon_name|].
  unfold download_name, JsString.replace_space_runs.
  rewrite string_length_app.
  pose proof (replace_runs_length false (JsString.toLowerCase name)) as H.
  simpl. lia.
Qed.





(** ** [handleStartOver] and the view *)

(** X11.  Start Over forgets everything a generation left behind and goes
    back to the initial store, except for the [downloading] flag, which it
    keeps; doing it twice is doing it once. *)
Theorem start_over_forgets (o : settled (Response json)) (st : Store) :
  handleStartOver (handleGenerate o st) =
    mkStore "" Idle JNull "" (downloading st)
  /\ handleStartOver (handleStartOver st) = handleStartOver st
  /\ (handleStartOver st = initial <-> downloading st = false).
Proof.
  split; [|split].
  - unfold handleGenerate, handleGenerate_begin.
    destruct (JsString.is_empty _); cbn [awaiting after]; [reflexivity|].
    unfold handleGenerate_resume. destruct (generate_try o); reflexivity.
  - reflexivity.
  - destruct st as [p s m e d]. cbv. split.
    + intros H. now injection H.
    + now intros ->.
Qed.

(** X12.  The conditions of the three panels exclude each other, so at most
    one panel is rendered; no condition holds exactly when the state is
    [Result] with a creature that is falsy, and then nothing is rendered and
    no control is usable. *)
Theorem panels_exclusive (st : Store) :
  panels_shown st <= 1
  /\ (panels_shown st = 0 <->
       state st = Result /\ Json.truthy (mob st) = false)
  /\ (panels_shown st = 0 -> forall ctl, usable ctl st = false).
Proof.
  unfold panels_shown, usable, form_shown, loading_shown, result_shown.
  destruct (state st); destruct (Json.truthy (mob st)); simpl;
    repeat split; try lia; try discriminate; try tauto;
    try (intros [? ?]; discriminate);
    try (intros _ [| | |]; reflexivity).
Qed.

Section MoreRuns.

Variable type_error_message : option json -> string.

Lemma filter_nth_error {A : Type} (f : A -> bool) (l : list A) :
  0 < length (filter f l) ->
  exists i x, nth_error l i = Some x /\ f x = true.
Proof.
  induction l as [|a l IH]; simpl; [lia|].
  destruct (f a) eqn:E.
  - intros _. now exists 0, a.
  - intros H. destruct (IH H) as (i & x & Hi & Hx). now exists (S i), x.
Qed.

(** X13.  In every configuration the rendered controls can lead to, at most
    one request of each kind is in flight; [downloading], and with it the
    button's "Downloading..." label, is set exactly while a packaging
    request is in flight, and the download button is not usable then. *)
Theorem one_request_per_kind (es : list event) (c : Config) :
  run type_error_message init es = Some c ->
  generating c <= 1
  /\ fetching_addon c <= 1
  /\ (downloading (store c) = true <-> fetching_addon c = 1)
  /\ (download_label (store c) = "Downloading..." <-> fetching_addon c = 1)
  /\ (fetching_addon c = 1 -> usable DownloadButton (store c) = false).
Proof.
  intros Hrun.
  destruct (reachable_coherent type_error_message es c Hrun)
    as [G1 _ D1 D2 _].
  repeat split; try assumption; try (now apply D2).
  - unfold download_label. destruct (downloading (store c)) eqn:E.
    + intros _. now apply D2.
    + discriminate.
  - intros H. unfold download_label.
    apply D2 in H. now rewrite H.
  - intros H. simpl. apply D2 in H. rewrite H. apply andb_false_r.
Qed.

(** X14.  [Loading] is never a dead end: in every configuration the
    rendered controls can lead to, a [Loading] state has its request in
    flight, and whatever outcome that request settles with, the state
    leaves [Loading] and no generation request remains. *)
Theorem loading_resolves (es : list event) (c : Config) :
  run type_error_message init es = Some c ->
  state (store c) = Loading ->
  exists i,
    nth_error (inflight c) i = Some AwaitGenerate
    /\ forall g, exists c',
         step type_error_message c (Settle i (GenerateSettles g)) = Some c'
         /\ state (store c') <> Loading
         /\ generating c' = 0.
Proof.
  intros Hrun HL.
  pose proof (reachable_coherent type_error_message es c Hrun) as Hc.
  destruct Hc as [G1 G2 _ _ _].
  assert (generating c = 1) as G by now apply G2.
  destruct (filter_nth_error is_generate (inflight c)) as (i & x & Hi & Hx).
  { unfold generating in G. lia. }
  destruct x as [|captured]; [|discriminate].
  exists i. split; [exact Hi|]. intros g. eexists. simpl. rewrite Hi.
  split; [reflexivity|]. split.
  - simpl. destruct (generate_resume_applies g (store c)) as [E|E];
      rewrite E; discriminate.
  - pose proof (count_remove_nth is_generate _ _ _ Hi) as Cg.
    unfold generating in *. simpl in *. lia.
Qed.

(** X15.  A response in 200..299 whose body is a falsy JSON value ([null],
    [false], [0] or the empty string) ends the session: the state is
    [Result], no panel is rendered, no control is usable, and once nothing
    is in flight no event can happen any more. *)
Theorem falsy_creature_dead_end
    (st : Store) (res : Response json) (v : json) :
  JsString.is_empty (JsString.trim (prompt st)) = false ->
  ok res = true ->
  body res = Fulfilled v ->
  Json.truthy v = false ->
  state (handleGenerate (Fulfilled res) st) = Result
  /\ panels_shown (handleGenerate (Fulfilled res) st) = 0
  /\ (forall ctl, usable ctl (handleGenerate (Fulfilled res) st) = false)
  /\ (forall c es c',
        store c = handleGenerate (Fulfilled res) st ->
        inflight c = [] ->
        run type_error_message c es = Some c' ->
        es = []).
Proof.
  intros Hp Hok Hb Hv. rewrite (handleGenerate_nonblank _ st Hp).
  unfold handleGenerate_resume, generate_try. rewrite Hok, Hb.
  set (st' := setState Result _).
  assert (forall ctl, usable ctl st' = false) as Hu.
  { intros [| | |]; simpl; unfold form_shown, result_shown; simpl;
      now rewrite ?Hv. }
  split; [reflexivity|]. split.
  { unfold panels_shown, form_shown, loading_shown, result_shown. simpl.
    now rewrite Hv. }
  split; [exact Hu|].
  intros c es c' Hs Hi Hrun. destruct es as [|e es]; [reflexivity|].
  exfalso. simpl in Hrun.
  assert (step type_error_message c e = None) as Hn.
  { destruct e as [x| | | |i o]; cbn [step]; rewrite ?Hs, ?Hi.
    - now rewrite (Hu PromptInput).
    - now rewrite (Hu SubmitButton).
    - now rewrite (Hu DownloadButton).
    - now rewrite (Hu StartOverButton).
    - now destruct i. }
  rewrite Hn in Hrun. discriminate.
Qed.

(** What the handlers themselves emit is always of the expected kind. *)
Lemma generate_begin_expected (st : Store) :
  Forall expected (effects (handleGenerate_begin st)).
Proof.
  unfold handleGenerate_begin.
  destruct (JsString.is_empty (JsString.trim (prompt st))) eqn:E;
    cbn [effects].
  - constructor; [exact I|constructor].
  - constructor; [exact I|]. constructor; [|constructor].
    left. split; [reflexivity|].
    exists (JsString.trim (prompt st)). split; [reflexivity|]. split.
    + intros H. rewrite H in E. discriminate.
    + apply trim_idempotent.
Qed.

Lemma download_begin_expected (st : Store) :
  Forall expected (effects (handleDownload_begin st)).
Proof.
  unfold handleDownload_begin.
  destruct (Json.truthy (mob st)) eqn:E; cbn [negb effects].
  - constructor; [|constructor]. right. now split.
  - constructor.
Qed.

Lemma download_resume_expected (captured : json)
    (o : settled (Response blob)) (st : Store) :
  Forall expected
    (snd (handleDownload_resume type_error_message captured o st)).
Proof.
  unfold handleDownload_resume, download_try, filename_of.
  destruct o as [res|err]; [|constructor].
  destruct (ok res); [|constructor].
  destruct (body res); [|constructor].
  destruct (Json.get "name" captured) as [[| | |name| |]|];
    try (now constructor).
  constructor; [|constructor].
  apply download_name_is_addon_name.
Qed.

Lemma step_keeps_expected (c c' : Config) (e : event) :
  Forall expected (log c) ->
  step type_error_message c e = Some c' ->
  Forall expected (log c').
Proof.
  intros Hl H. destruct e as [v| | | |i o]; simpl in H.
  - destruct (form_shown (store c)); [|discriminate]. now injection H as <-.
  - destruct (_ && _); [|discriminate]. injection H as <-.
    apply Forall_app. split; [exact Hl|apply generate_begin_expected].
  - destruct (_ && _); [|discriminate]. injection H as <-.
    apply Forall_app. split; [exact Hl|apply download_begin_expected].
  - destruct (result_shown (store c)); [|discriminate]. now injection H as <-.
  - destruct (nth_error (inflight c) i) as [[|captured]|];
      destruct o as [g|d]; try discriminate.
    + now injection H as <-.
    + pose proof (download_resume_expected captured d (store c)) as Hd.
      destruct (handleDownload_resume type_error_message captured d (store c))
        as [st done].
      injection H as <-. apply Forall_app. now split.
Qed.

Lemma run_keeps_expected (es : list event) :
  forall c c' : Config,
    Forall expected (log c) ->
    run type_error_message c es = Some c' ->
    Forall expected (log c').
Proof.
  induction es as [|e es IH]; intros c c' Hl H; simpl in H.
  - now injection H as <-.
  - destruct (step type_error_message c e) as [c1|] eqn:E; [|discriminate].
    exact (IH c1 c' (step_keeps_expected c c1 e Hl E) H).
Qed.

(** X16.  Whatever the user and the network do, the application only ever
    requests [/generate-json] with a non-empty prompt that has no white
    space around it, requests [/build-addon] with a truthy creature, and
    saves files whose name is a lower-case stem without white space ending
    in [.mcaddon]. *)
Theorem log_as_expected (es : list event) (c : Config) (e : effect) :
  run type_error_message init es = Some c ->
  In e (log c) ->
  expected e.
Proof.
  intros Hrun Hin.
  pose proof (run_keeps_expected es init c (Forall_nil _) Hrun) as H.
  rewrite Forall_forall in H. now apply H.
Qed.

(** X17.  Every URL the application ever fetches is one of the two paths
    [/generate-json] and [/build-addon], and the development server's proxy
    table sends both to the backend at [http://localhost:8000]; the rules
    for [/generate-addon] and [/health] are never exercised by it. *)
Theorem fetches_are_proxied (es : list event) (c : Config) (url : string) :
  run type_error_message init es = Some c ->
  In (Some url) (map fetched_url (log c)) ->
  (url = "/generate-json" \/ url = "/build-addon")
  /\ ViteConfig.target ViteConfig.proxy url = Some ViteConfig.backend.
Proof.
  intros Hrun Hin. apply in_map_iff in Hin as (e & He & Hin).
  pose proof (run_keeps_expected es init c (Forall_nil _) Hrun) as H.
  rewrite Forall_forall in H. specialize (H e Hin).
  destruct e as [|u payload|f content]; try discriminate.
  injection He as ->. simpl in H.
  destruct H as [[-> _]|[-> _]]; split; auto.
Qed.

End MoreRuns.

(** ** The further properties at work on samples *)

Lemma generate_sends_trimmed_prompt_witness :
  exists p l r c d,
    effects (handleGenerate_begin (typed "  fire dragon ")) =
      [PreventDefault; Fetch "/generate-json" (JObj [("prompt", JStr p)])]
    /\ prompt (typed "  fire dragon ") = l ++ p ++ r
    /\ JsString.all_space l = true /\ JsString.all_space r = true
    /\ first_char p = Some c /\ JsString.is_space c = false
    /\ last_char p = Some d /\ JsString.is_space d = false.
Proof.
  apply (generate_sends_trimmed_prompt (typed "  fire dragon ")).
  reflexivity.
Defined.

Lemma submit_enabled_iff_request_witness :
  usable SubmitButton (typed " zed") = true <->
  awaiting (handleGenerate_begin (typed " zed")) = Some AwaitGenerate.
Proof.
  exact (proj1 (submit_enabled_iff_request (typed " zed") eq_refl)).
Defined.

Lemma generate_outcome_witness :
  prompt (handleGenerate (unreadable_reply 200) (typed "zed")) = "zed"
  /\ downloading (handleGenerate (unreadable_reply 200) (typed "zed")) = false.
Proof.
  exact (proj2 (proj2 (generate_outcome (unreadable_reply 200) (typed "zed")
                         eq_refl))).
Defined.

Lemma generate_transport_failure_witness :
  handleGenerate (Rejected (ErrorObject "Failed to fetch")) (typed "zed") =
    mkStore "zed" Error JNull "Failed to fetch" false
  /\ form_shown
       (handleGenerate (Rejected (ErrorObject "Failed to fetch")) (typed "zed"))
     = true.
Proof.
  exact (generate_transport_failure (ErrorObject "Failed to fetch")
           (typed "zed") eq_refl).
Defined.

Lemma generate_failure_structured_detail_witness :
  error (handleGenerate
           (json_reply 422
              (JObj [("detail",
                      JArr (map JObj [[("loc", JStr "body")];
                                      [("loc", JStr "query")]]))]))
           (typed "zed"))
  = "[object Object],[object Object]".
Proof.
  refine (proj1 (proj2 (generate_failure_structured_detail (typed "zed")
                          (mkResponse 422
                             (Fulfilled
                                (JObj [("detail",
                                        JArr (map JObj
                                                [[("loc", JStr "body")];
                                                 [("loc", JStr "query")]]))])))
                          _ eq_refl eq_refl eq_refl))
            [[("loc", JStr "body")]; [("loc", JStr "query")]] eq_refl _).
  constructor; [reflexivity|]. constructor; [reflexivity|]. constructor.
Defined.

Lemma status_messages_distinct_witness :
  server_error 404 <> server_error 500
  /\ download_error 404 <> download_error 500.
Proof.
  apply (status_messages_distinct 404 500). discriminate.
Defined.

Lemma download_success_frame_witness :
  handleDownload v8_type_error
    (Fulfilled (mkResponse 200 (Fulfilled [x50; x4b])))
    (setError "Download failed (500)" (showing zed))
  = mkStore "zed" Result zed "Download failed (500)" false.
Proof.
  exact (proj1 (download_success_frame v8_type_error
                  (setError "Download failed (500)" (showing zed))
                  "Zed Two" (mkResponse 200 (Fulfilled [x50; x4b]))
                  [x50; x4b] eq_refl eq_refl eq_refl eq_refl)).
Defined.

Lemma download_without_name_witness :
  effects (handleDownload_begin (showing (JObj [("health", JNum 20)]))) =
    [Fetch "/build-addon" (JObj [("health", JNum 20)])]
  /\ error (handleDownload v8_type_error
              (Fulfilled (mkResponse 200 (Fulfilled [x50; x4b])))
              (showing (JObj [("health", JNum 20)])))
     = "Cannot read properties of undefined (reading 'toLowerCase')".
Proof.
  assert (forall name : string,
            Json.get "name" (mob (showing (JObj [("health", JNum 20)])))
            <> Some (JStr name)) as Hn by (intros name; discriminate).
  destruct (download_without_name v8_type_error
              (showing (JObj [("health", JNum 20)])) eq_refl Hn)
    as [Hf [_ He]].
  split; [exact Hf|].
  exact (He (mkResponse 200 (Fulfilled [x50; x4b])) [x50; x4b]
            eq_refl eq_refl).
Defined.


Lemma panels_exclusive_witness :
  usable StartOverButton (showing JNull) = false.
Proof.
  exact (proj2 (proj2 (panels_exclusive (showing JNull))) eq_refl
           StartOverButton).
Defined.

Lemma one_request_per_kind_witness :
  generating zed_loading <= 1
  /\ fetching_addon zed_loading <= 1
  /\ (downloading (store zed_loading) = true <-> fetching_addon zed_loading = 1)
  /\ (download_label (store zed_loading) = "Downloading..." <->
       fetching_addon zed_loading = 1)
  /\ (fetching_addon zed_loading = 1 ->
       usable DownloadButton (store zed_loading) = false).
Proof.
  exact (one_request_per_kind v8_type_error zed_requested zed_loading eq_refl).
Defined.

Lemma loading_resolves_witness :
  exists i,
    nth_error (inflight zed_loading) i = Some AwaitGenerate
    /\ forall g, exists c',
         step v8_type_error zed_loading (Settle i (GenerateSettles g))
         = Some c'
         /\ state (store c') <> Loading
         /\ generating c' = 0.
Proof.
  exact (loading_resolves v8_type_error zed_requested zed_loading
           eq_refl eq_refl).
Defined.

Lemma falsy_creature_dead_end_witness :
  state (handleGenerate (json_reply 200 JNull) (typed "zed")) = Result
  /\ panels_shown (handleGenerate (json_reply 200 JNull) (typed "zed")) = 0.
Proof.
  destruct (falsy_creature_dead_end v8_type_error (typed "zed")
              (mkResponse 200 (Fulfilled JNull)) JNull
              eq_refl eq_refl eq_refl eq_refl) as [Hs [Hp _]].
  split; [exact Hs|exact Hp].
Defined.

Lemma log_as_expected_witness :
  expected (Fetch "/generate-json" (JObj [("prompt", JStr "zed")])).
Proof.
  apply (log_as_expected v8_type_error zed_requested zed_loading).
  - reflexivity.
  - simpl. right. left. reflexivity.
Defined.

Lemma fetches_are_proxied_witness :
  ("/generate-json" = "/generate-json" \/ "/generate-json" = "/build-addon")
  /\ ViteConfig.target ViteConfig.proxy "/generate-json" =
       Some ViteConfig.backend.
Proof.
  apply (fetches_are_proxied v8_type_error zed_requested zed_loading).
  - reflexivity.
  - simpl. right. left. reflexivity.
Defined.

Lemma generate_independent_of_past_witness :
  handleGenerate (json_reply 200 zed)
    (mkStore "zed" Error JNull "Server error (500)" false)
  = handleGenerate (json_reply 200 zed) (typed "zed").
Proof.
  exact (generate_independent_of_past (json_reply 200 zed) (typed "zed")
           Error JNull "Server error (500)" eq_refl).
Defined.
